(** * Spec-Kit prompt server: [templates/antigravity/specify_mcp.py]

    The module builds one [FastMCP] server object, registers two prompt
    generators on it with the [@mcp.prompt()] decorator, and, when run as a
    script, hands control to the server loop.

    Python strings are modelled as [string]; the server's prompt table, a
    Python [dict], as a [gmap]; the generators as computations in a small
    state-and-exception monad over the part of the process state a prompt
    function could touch (the files it could read or write). *)

From stdpp Require Import gmap strings list fin_maps.

Local Open Scope string_scope.

(** ** Formatted string literals *)

Module FString.

(** An f-string is a sequence of literal pieces and replacement fields. *)
Inductive Fragment : Type :=
| Literal (text : string)
| Replacement (value : string).

(** [format(value, "")] on a [str]: [str.__format__] with an empty format
    specification returns the string itself. *)
Definition format_value (value : string) : string := value.

Definition render (f : Fragment) : string :=
  match f with
  | Literal text => text
  | Replacement value => format_value value
  end.

(** Evaluation joins the rendered pieces from left to right. *)
Fixpoint joined_str (fs : list Fragment) : string :=
  match fs with
  | [] => ""
  | f :: rest => render f +:+ joined_str rest
  end.

End FString.

(** ** Process state and the monad of Python computations *)

(** The files of the host, by path. *)
Record World : Type := mkWorld { files : gmap string string }.

Inductive PyError : Type :=
| ValueError (msg : string).

Inductive Result (A : Type) : Type :=
| Return (value : A)
| Raise (err : PyError).
Arguments Return {A} value.
Arguments Raise {A} err.

Definition Py (A : Type) : Type := World -> Result A * World.

Definition py_ret {A : Type} (a : A) : Py A := fun w => (Return a, w).

Definition py_raise {A : Type} (e : PyError) : Py A := fun w => (Raise e, w).

Definition py_bind {A B : Type} (m : Py A) (k : A -> Py B) : Py B :=
  fun w =>
    match m w with
    | (Return a, w') => k a w'
    | (Raise e, w') => (Raise e, w')
    end.

Definition outcome {A : Type} (m : Py A) (w : World) : Result A := fst (m w).
Definition final {A : Type} (m : Py A) (w : World) : World := snd (m w).

(** ** The two prompt generators *)

Import FString.

Definition specify (goal : string) : Py string :=
  py_ret (joined_str [ Literal "Role: AI Architect. Goal: ";
                       Replacement goal;
                       Literal ". Create a SPEC.md file." ]).

Definition plan (spec_content : string) : Py string :=
  py_ret (joined_str [ Literal "Read this spec: ";
                       Replacement spec_content;
                       Literal ". Create a PLAN.md." ]).

(** ** Function objects

    What a [def] statement leaves behind and a decorator can inspect: the
    identifier, the docstring, the signature and the callable. *)

Inductive Annotation : Type :=
| Ann_str
| Ann_missing.

Record Param : Type := mkParam {
  param_name : string;
  param_annotation : Annotation;
  param_has_default : bool
}.

Record Function : Type := mkFunction {
  fn_name : string;
  fn_doc : option string;
  fn_signature : list Param;
  fn_call : string -> Py string
}.

Definition specify_def : Function :=
  {| fn_name := "specify";
     fn_doc := Some "Start the Spec-Driven Development process.";
     fn_signature := [ mkParam "goal" Ann_str false ];
     fn_call := specify |}.

Definition plan_def : Function :=
  {| fn_name := "plan";
     fn_doc := Some "Generate a plan from the spec.";
     fn_signature := [ mkParam "spec_content" Ann_str false ];
     fn_call := plan |}.

(** ** The prompt registry of the host library *)

Module MCP.

Inductive SchemaType : Type :=
| TString
| TAny.

Record PromptArgument : Type := mkArgument {
  arg_name : string;
  arg_type : SchemaType;
  arg_required : bool
}.

(** Modelled from the spec: the descriptor that the [FastMCP] library, which
    is imported and not part of this repository, keeps for a registered
    prompt: the name, the one-line description, the parameter schema and
    the callable. *)
Record Prompt : Type := mkPrompt {
  name : string;
  description : string;
  arguments : list PromptArgument;
  fn : string -> Py string
}.

(** Modelled from the spec: the [FastMCP] server object, a display name and
    the mapping from prompt name to descriptor. *)
Record FastMCP : Type := mkFastMCP {
  server_name : string;
  prompts : gmap string Prompt
}.

(** [FastMCP(display_name)]: a server with nothing registered. *)
Definition new (display_name : string) : FastMCP :=
  {| server_name := display_name; prompts := ∅ |}.

Definition schema_type (a : Annotation) : SchemaType :=
  match a with
  | Ann_str => TString
  | Ann_missing => TAny
  end.

Definition argument_of (p : Param) : PromptArgument :=
  {| arg_name := param_name p;
     arg_type := schema_type (param_annotation p);
     arg_required := negb (param_has_default p) |}.

(** Modelled from the spec: the descriptor of a function registered without
    explicit options takes the function identifier as name, the docstring
    as description, and one schema entry per parameter. *)
Definition from_function (f : Function) : Prompt :=
  {| name := fn_name f;
     description := default "" (fn_doc f);
     arguments := argument_of <$> fn_signature f;
     fn := fn_call f |}.

Definition add_prompt (p : Prompt) (srv : FastMCP) : FastMCP :=
  {| server_name := server_name srv;
     prompts := <[name p := p]> (prompts srv) |}.

(** Modelled from the spec: [@srv.prompt()] applied to a function performs
    one registration call on the server object. *)
Definition prompt (f : Function) (srv : FastMCP) : FastMCP :=
  add_prompt (from_function f) srv.

(** What an external caller can enumerate: names with descriptions. *)
Definition list_prompts (srv : FastMCP) : gmap string string :=
  description <$> prompts srv.

Record PromptRequest : Type := mkRequest {
  generatorName : string;
  argument : string
}.

(** Modelled from the spec: the dispatcher routes a request to the
    generator registered under its name and relays what it returns; an
    unregistered name is rejected without running any generator. *)
Definition get_prompt (srv : FastMCP) (req : PromptRequest) : Py string :=
  match prompts srv !! generatorName req with
  | Some p => fn p (argument req)
  | None => py_raise (ValueError ("Unknown prompt: " +:+ generatorName req))
  end.

(** The serving process: the server object and the host's files. *)
Record Process : Type := mkProcess {
  server : FastMCP;
  world : World
}.

Definition handle (st : Process) (req : PromptRequest)
  : Result string * Process :=
  let '(r, w) := get_prompt (server st) req (world st) in
  (r, {| server := server st; world := w |}).

(** Modelled from the spec: the serve loop answers the incoming requests
    one after the other. *)
Fixpoint run (st : Process) (reqs : list PromptRequest)
  : list (Result string) * Process :=
  match reqs with
  | [] => ([], st)
  | req :: rest =>
      let '(r, st1) := handle st req in
      let '(rs, st2) := run st1 rest in
      (r :: rs, st2)
  end.

End MCP.

(** ** Module initialisation

    The statements of the module body, in order, threading the one server
    object they all mutate. *)

Definition module_init : MCP.FastMCP :=
  let mcp0 := MCP.new "Spec-Kit" in
  let mcp1 := MCP.prompt specify_def mcp0 in
  let mcp2 := MCP.prompt plan_def mcp1 in
  mcp2.

Definition mcp : MCP.FastMCP := module_init.

(** [if __name__ == "__main__": mcp.run()] *)
Definition main (w : World) (reqs : list MCP.PromptRequest)
  : list (Result string) * MCP.Process :=
  MCP.run {| MCP.server := mcp; MCP.world := w |} reqs.

(** ** Notions used in the statements *)

(** A computation is pure when it yields the same result in every world and
    hands the world back as it found it. *)
Definition Pure {A : Type} (m : Py A) : Prop :=
  exists r, forall w, m w = (r, w).

Definition is_string_type (t : MCP.SchemaType) : bool :=
  match t with
  | MCP.TString => true
  | MCP.TAny => false
  end.

(** The parameter schema of [p] has exactly one entry, it is string-typed and
    its name is [n]. *)
Definition sole_string_parameter (p : MCP.Prompt) (n : string) : bool :=
  match MCP.arguments p with
  | [a] => bool_decide (MCP.arg_name a = n) && is_string_type (MCP.arg_type a)
  | _ => false
  end.

Definition declares_sole_string_parameter
    (srv : MCP.FastMCP) (prompt_name n : string) : bool :=
  match MCP.prompts srv !! prompt_name with
  | Some p => sole_string_parameter p n
  | None => false
  end.

(** The line feed, written [\n] in Python source. *)
Definition LF : Ascii.ascii := Ascii.ascii_of_nat 10.

(** A world to run examples in: a host without files. *)
Definition empty_world : World := mkWorld ∅.

(** The braces that delimit a replacement field in an f-string. *)
Definition LBRACE : Ascii.ascii := Ascii.ascii_of_nat 123.
Definition RBRACE : Ascii.ascii := Ascii.ascii_of_nat 125.

(** How often the character [c] occurs in [s]. *)
Fixpoint count_char (c : Ascii.ascii) (s : string) : nat :=
  match s with
  | EmptyString => 0
  | String d rest => (if Ascii.eqb c d then 1 else 0) + count_char c rest
  end.

(** * Properties *)

(** ** Strings *)

Section Append.

Lemma append_length (s t : string) :
  String.length (s +:+ t) = String.length s + String.length t.
Proof. induction s as [|c s IH]; simpl; [reflexivity | now rewrite IH]. Qed.

Lemma append_cancel_l (p a b : string) : p +:+ a = p +:+ b -> a = b.
Proof.
  induction p as [|c p IH]; simpl; intros H; [exact H |].
  injection H as H. now apply IH.
Qed.

Lemma append_cancel_r (t a b : string) : a +:+ t = b +:+ t -> a = b.
Proof.
  revert b. induction a as [|c a IH]; intros [|d b] H.
  - reflexivity.
  - apply (f_equal String.length) in H.
    rewrite !append_length in H. simpl in H. lia.
  - apply (f_equal String.length) in H.
    rewrite !append_length in H. simpl in H. lia.
  - cbn in H. injection H as -> H. f_equal. now apply IH.
Qed.

End Append.

(** ** Running the generators *)

Lemma py_ret_pure {A : Type} (a : A) : Pure (py_ret a).
Proof. exists (Return a). reflexivity. Qed.

Lemma py_raise_pure {A : Type} (e : PyError) : Pure (@py_raise A e).
Proof. exists (Raise e). reflexivity. Qed.

Lemma pure_final {A : Type} (m : Py A) (w : World) : Pure m -> final m w = w.
Proof. intros [r H]. unfold final. now rewrite H. Qed.

Lemma pure_outcome {A : Type} (m : Py A) (w1 w2 : World) :
  Pure m -> outcome m w1 = outcome m w2.
Proof. intros [r H]. unfold outcome. now rewrite !H. Qed.

Lemma specify_run (goal : string) (w : World) :
  specify goal w =
  (Return ("Role: AI Architect. Goal: " +:+ goal +:+ ". Create a SPEC.md file."), w).
Proof. reflexivity. Qed.

Lemma plan_run (spec_content : string) (w : World) :
  plan spec_content w =
  (Return ("Read this spec: " +:+ spec_content +:+ ". Create a PLAN.md."), w).
Proof. reflexivity. Qed.

Lemma specify_pure (goal : string) : Pure (specify goal).
Proof. apply py_ret_pure. Qed.

Lemma plan_pure (spec_content : string) : Pure (plan spec_content).
Proof. apply py_ret_pure. Qed.

(** ** The registry after initialisation *)

Lemma mcp_lookup (n : string) :
  MCP.prompts mcp !! n =
  if decide (n = "plan") then Some (MCP.from_function plan_def)
  else if decide (n = "specify") then Some (MCP.from_function specify_def)
  else None.
Proof.
  unfold mcp, module_init, MCP.prompt, MCP.add_prompt, MCP.new. simpl.
  repeat case_decide; subst; simplify_map_eq; reflexivity.
Qed.

Lemma get_prompt_pure (req : MCP.PromptRequest) : Pure (MCP.get_prompt mcp req).
Proof.
  unfold MCP.get_prompt. rewrite mcp_lookup.
  repeat case_decide; simpl;
    auto using specify_pure, plan_pure, py_raise_pure.
Qed.

(** ** The serve loop *)

Lemma handle_server (st : MCP.Process) (req : MCP.PromptRequest) :
  MCP.server (snd (MCP.handle st req)) = MCP.server st.
Proof. unfold MCP.handle. now destruct (MCP.get_prompt _ _ _). Qed.

Lemma run_server (reqs : list MCP.PromptRequest) :
  forall st, MCP.server (snd (MCP.run st reqs)) = MCP.server st.
Proof.
  induction reqs as [|req rest IH]; intros st; simpl; [reflexivity |].
  pose proof (handle_server st req) as Hh.
  destruct (MCP.handle st req) as [r st1]. simpl in Hh.
  specialize (IH st1). destruct (MCP.run st1 rest) as [rs st2].
  simpl in *. congruence.
Qed.

Lemma handle_mcp (w : World) (req : MCP.PromptRequest) :
  snd (MCP.handle (MCP.mkProcess mcp w) req) = MCP.mkProcess mcp w.
Proof.
  unfold MCP.handle. simpl.
  destruct (get_prompt_pure req) as [r H]. now rewrite H.
Qed.

Lemma run_mcp (w : World) (reqs : list MCP.PromptRequest) :
  snd (main w reqs) = MCP.mkProcess mcp w.
Proof.
  unfold main. induction reqs as [|req rest IH]; simpl; [reflexivity |].
  pose proof (handle_mcp w req) as Hh.
  destruct (MCP.handle _ req) as [r st1]. simpl in Hh. subst st1.
  destruct (MCP.run _ rest) as [rs st2]. simpl in *. exact IH.
Qed.

(** ** Exact output of the generators *)

(** C1: for every string [g], [specify(g)] returns exactly
    ["Role: AI Architect. Goal: " ++ g ++ ". Create a SPEC.md file."]; [g] is
    substituted verbatim, whatever characters it contains, and nothing else
    is altered. *)
Theorem specify_exact (g : string) (w : World) :
  outcome (specify g) w =
  Return ("Role: AI Architect. Goal: " +:+ g +:+ ". Create a SPEC.md file.").
Proof. unfold outcome. now rewrite specify_run. Qed.

Example specify_login :
  outcome (specify "build a login page") empty_world =
  Return "Role: AI Architect. Goal: build a login page. Create a SPEC.md file.".
Proof. reflexivity. Qed.

Example specify_braces :
  outcome (specify "{goal} }{") empty_world =
  Return "Role: AI Architect. Goal: {goal} }{. Create a SPEC.md file.".
Proof. reflexivity. Qed.

Example specify_newline :
  outcome (specify (String LF "x")) empty_world =
  Return ("Role: AI Architect. Goal: " +:+ String LF "x. Create a SPEC.md file.").
Proof. reflexivity. Qed.

(** C2: for every string [s], [plan(s)] returns exactly
    ["Read this spec: " ++ s ++ ". Create a PLAN.md."], with [s] substituted
    verbatim. *)
Theorem plan_exact (s : string) (w : World) :
  outcome (plan s) w =
  Return ("Read this spec: " +:+ s +:+ ". Create a PLAN.md.").
Proof. unfold outcome. now rewrite plan_run. Qed.

Example plan_overview :
  outcome (plan ("## Overview" +:+ String LF "Do X")) empty_world =
  Return ("Read this spec: ## Overview" +:+ String LF "Do X. Create a PLAN.md.").
Proof. reflexivity. Qed.

(** C7: on the empty string, [specify] returns exactly
    ["Role: AI Architect. Goal: . Create a SPEC.md file."]. *)
Theorem specify_empty (w : World) :
  outcome (specify "") w =
  Return "Role: AI Architect. Goal: . Create a SPEC.md file.".
Proof. reflexivity. Qed.

(** ** Totality, determinism and absence of side effects *)

(** C5: on every input string both generators return a string; neither can
    end in an error. *)
Theorem generators_total (x : string) (w : World) :
  (exists s, outcome (specify x) w = Return s) /\
  (exists s, outcome (plan x) w = Return s).
Proof.
  unfold outcome. rewrite specify_run, plan_run. simpl. eauto.
Qed.

(** C3: both generators are deterministic: two invocations on the same input
    give the same output, whatever state they run in; no call to a generator
    changes what a later call to either generator returns, also across any
    sequence of requests served before. *)
Theorem generators_deterministic :
  (forall x w1 w2, outcome (specify x) w1 = outcome (specify x) w2) /\
  (forall x w1 w2, outcome (plan x) w1 = outcome (plan x) w2) /\
  (forall x y w,
      outcome (specify y) (final (specify x) w) = outcome (specify y) w /\
      outcome (plan y) (final (specify x) w) = outcome (plan y) w /\
      outcome (specify y) (final (plan x) w) = outcome (specify y) w /\
      outcome (plan y) (final (plan x) w) = outcome (plan y) w) /\
  (forall w reqs req,
      fst (MCP.handle (snd (main w reqs)) req) =
      fst (MCP.handle (MCP.mkProcess mcp w) req)).
Proof.
  split_and!; intros; [| | split_and! | ];
    try (apply pure_outcome; auto using specify_pure, plan_pure).
  now rewrite run_mcp.
Qed.

(** C8: neither generator has a side effect: a call leaves the files of the
    host as they were, its result does not depend on them, and serving any
    sequence of requests leaves them unchanged as well. *)
Theorem generators_no_side_effect (x : string) (w : World) :
  final (specify x) w = w /\
  final (plan x) w = w /\
  (forall w', outcome (specify x) w' = outcome (specify x) w) /\
  (forall w', outcome (plan x) w' = outcome (plan x) w) /\
  (forall reqs, MCP.world (snd (main w reqs)) = w).
Proof.
  split_and!; intros.
  - apply pure_final, specify_pure.
  - apply pure_final, plan_pure.
  - apply pure_outcome, specify_pure.
  - apply pure_outcome, plan_pure.
  - now rewrite run_mcp.
Qed.

(** C9: each generator is injective and their ranges are disjoint. *)
Theorem generators_injective_disjoint :
  (forall a b w1 w2, outcome (specify a) w1 = outcome (specify b) w2 -> a = b) /\
  (forall a b w1 w2, outcome (plan a) w1 = outcome (plan b) w2 -> a = b) /\
  (forall a b w1 w2, outcome (specify a) w1 <> outcome (plan b) w2).
Proof.
  unfold outcome. split_and!; intros a b w1 w2.
  - rewrite !specify_run. simpl. intros H. injection H as H.
    apply append_cancel_l in H. now apply append_cancel_r in H.
  - rewrite !plan_run. simpl. intros H. injection H as H.
    apply append_cancel_l in H. now apply append_cancel_r in H.
  - rewrite specify_run, plan_run. simpl. intros H. cbn in H. discriminate H.
Qed.

Lemma generators_injective_disjoint_witness :
  outcome (specify "a") empty_world = outcome (specify "a") empty_world /\
  "a" = "a".
Proof.
  split; [reflexivity |].
  apply (proj1 generators_injective_disjoint "a" "a" empty_world empty_world).
  reflexivity.
Defined.

(** ** The registry *)

(** C6: after module initialisation, before any request is served, the
    registry lists both generators, [specify] and [plan], each with the
    docstring of its function as description and bound to that function. *)
Theorem registry_lists_both :
  MCP.list_prompts mcp !! "specify" =
    Some "Start the Spec-Driven Development process." /\
  MCP.list_prompts mcp !! "plan" = Some "Generate a plan from the spec." /\
  MCP.fn <$> MCP.prompts mcp !! "specify" = Some specify /\
  MCP.fn <$> MCP.prompts mcp !! "plan" = Some plan.
Proof.
  unfold MCP.list_prompts. rewrite !lookup_fmap, !mcp_lookup.
  split_and!; reflexivity.
Qed.

(** C10: the registered prompt names are exactly [specify] and [plan], and
    serving requests never changes the registry built at initialisation. *)
Theorem registry_exactly_two :
  dom (MCP.prompts mcp) = {[ "specify"; "plan" ]} /\
  size (MCP.prompts mcp) = 2 /\
  (forall w reqs, MCP.server (snd (main w reqs)) = mcp).
Proof.
  split_and!.
  - unfold mcp, module_init, MCP.prompt, MCP.add_prompt, MCP.new. simpl.
    rewrite !dom_insert_L, dom_empty_L. set_solver.
  - reflexivity.
  - intros w reqs. now rewrite run_mcp.
Qed.

(** C4, as the specification words it: the descriptor of [plan] would
    declare a single string parameter called [specContent].  It does not. *)
Lemma plan_parameter_not_specContent :
  ~ (declares_sole_string_parameter mcp "plan" "specContent" = true).
Proof. intros H. vm_compute in H. discriminate H. Qed.

(** C4, amended: the descriptor of [plan] declares exactly one parameter; it
    is string-typed and named [spec_content], the name the function gives
    it, and no other name. *)
Theorem plan_parameter_spec_content (n : string) :
  declares_sole_string_parameter mcp "plan" n =
  bool_decide (n = "spec_content").
Proof.
  unfold declares_sole_string_parameter. rewrite mcp_lookup. simpl.
  unfold sole_string_parameter. simpl. rewrite andb_true_r.
  apply bool_decide_ext. split; congruence.
Qed.

(** * Further properties of the generators *)

(** ** Auxiliary facts on strings *)

Section Occurrences.

Lemma count_char_append (c : Ascii.ascii) (s t : string) :
  count_char c (s +:+ t) = count_char c s + count_char c t.
Proof.
  induction s as [|d s IH]; [reflexivity |].
  change (String d s +:+ t) with (String d (s +:+ t)).
  cbn [count_char]. rewrite IH. lia.
Qed.

Lemma substring_head (g t : string) :
  String.substring 0 (String.length g) (g +:+ t) = g.
Proof.
  induction g as [|d g IH].
  - now destruct t.
  - change (String d g +:+ t) with (String d (g +:+ t)).
    cbn [String.length String.substring]. now rewrite IH.
Qed.

Lemma substring_skip (p g t : string) :
  String.substring (String.length p) (String.length g) (p +:+ g +:+ t) = g.
Proof.
  induction p as [|d p IH]; [exact (substring_head g t) | exact IH].
Qed.

End Occurrences.

(** Evaluates the occurrence counts taken on string literals. *)
Ltac count_literals :=
  repeat match goal with
  | |- context [count_char ?c (String ?a ?s)] =>
      let v := eval vm_compute in (count_char c (String a s)) in
      change (count_char c (String a s)) with v
  end.

(** ** Size of the output *)

(** X1: the output of [specify] is the input lengthened by the 50 characters
    of its template, that of [plan] by 35: nothing is cut off, and no output
    is empty. *)
Theorem generators_output_length (x : string) (w : World) :
  (exists out, outcome (specify x) w = Return out /\
     String.length out = String.length x + 50) /\
  (exists out, outcome (plan x) w = Return out /\
     String.length out = String.length x + 35).
Proof.
  unfold outcome. rewrite specify_run, plan_run. cbn [fst].
  split; eexists; (split; [reflexivity |]);
    rewrite !append_length; cbn; lia.
Qed.

(** ** Position of the argument in the output *)

(** X2: the argument can be read back from the output at a fixed place: the
    characters of [specify(g)] from offset 26, and those of [plan(s)] from
    offset 16, over the length of the argument, are the argument itself. *)
Theorem generators_argument_position (x : string) (w : World) :
  (exists out, outcome (specify x) w = Return out /\
     String.substring 26 (String.length x) out = x) /\
  (exists out, outcome (plan x) w = Return out /\
     String.substring 16 (String.length x) out = x).
Proof.
  unfold outcome. rewrite specify_run, plan_run. cbn [fst].
  split; eexists; (split; [reflexivity |]).
  - exact (substring_skip "Role: AI Architect. Goal: " x _).
  - exact (substring_skip "Read this spec: " x _).
Qed.

(** ** Character accounting *)

(** X3: every character occurs in the output as often as in the argument
    plus as often as in the bare template (the output on the empty string):
    the generators neither drop nor duplicate any character of the input. *)
Theorem generators_char_count (c : Ascii.ascii) (x : string) (w : World) :
  (exists out, outcome (specify x) w = Return out /\
     count_char c out =
     count_char c x +
     count_char c "Role: AI Architect. Goal: . Create a SPEC.md file.") /\
  (exists out, outcome (plan x) w = Return out /\
     count_char c out =
     count_char c x + count_char c "Read this spec: . Create a PLAN.md.").
Proof.
  unfold outcome. rewrite specify_run, plan_run. cbn [fst].
  split; eexists; (split; [reflexivity |]); rewrite !count_char_append.
  - change "Role: AI Architect. Goal: . Create a SPEC.md file."
      with ("Role: AI Architect. Goal: " +:+ ". Create a SPEC.md file.").
    rewrite count_char_append. lia.
  - change "Read this spec: . Create a PLAN.md."
      with ("Read this spec: " +:+ ". Create a PLAN.md.").
    rewrite count_char_append. lia.
Qed.

(** X4: the templates hold no brace and no line feed, so the output has
    exactly the braces and line feeds of the argument: no placeholder is left
    unfilled and the output has as many lines as the input. *)
Theorem generators_braces_and_lines (x : string) (w : World) :
  (exists out, outcome (specify x) w = Return out /\
     count_char LBRACE out = count_char LBRACE x /\
     count_char RBRACE out = count_char RBRACE x /\
     count_char LF out = count_char LF x) /\
  (exists out, outcome (plan x) w = Return out /\
     count_char LBRACE out = count_char LBRACE x /\
     count_char RBRACE out = count_char RBRACE x /\
     count_char LF out = count_char LF x).
Proof.
  unfold outcome. rewrite specify_run, plan_run. cbn [fst].
  split; eexists; (split; [reflexivity |]);
    rewrite !count_char_append; count_literals; split_and!; lia.
Qed.
